(** * justatom: the hello-clustering notebook

    A shallow embedding of the notebook
    [notebook/clustering-tutorials/hello-clustering.ipynb]: the document
    loader [ignite_dataset], the text/label extraction of cell 3, the device
    selector [maybe_cuda_or_mps] and the tabular view builder [prepare2d].

    Python values are a small inductive type, exceptions are an error monad,
    and what the notebook takes from its surroundings (pathlib's
    normalisation, the UTF-8 codec, simplejson's decoder, the module-level
    binding of [embeddings], the polars release in use and its coercion of
    mixed rows) are Section variables: the notebook is verified for every
    one of them. *)

From Stdlib Require Import ZArith String List.
From Stdlib Require Import Floats.PrimFloat.
From stdpp Require Import base list strings gmap pretty.

#[local] Set Warnings "-register-all".
#[local] Open Scope string_scope.

(** ** Python values *)

(** A numpy array of rank 2: its shape and its row-major buffer.  Element
    [(i, j)] sits at offset [i * shape[1] + j]. *)
Record ndarray : Type := NDArray {
  shape : nat * nat;
  buffer : list float
}.

(** What [json.load] can return: None, bool, int, float, str, list, dict.
    A dict keeps its entries in insertion order; the decoder leaves one
    entry per key. *)
Inductive value : Type :=
| VNone
| VBool (b : bool)
| VInt (z : Z)
| VFloat (x : float)
| VStr (s : string)
| VList (items : list value)
| VDict (entries : list (string * value)).

(** What a module-level name of the notebook can be bound to: a plain
    value, an array of rank 2, a list of such objects, or any other object
    that carries a [shape] (an array or a tensor of another rank, a frame),
    known by the dimensions of that shape. *)
Inductive object : Type :=
| OValue (v : value)
| OArray (a : ndarray)
| OList (items : list object)
| OShaped (dims : list nat).

(** What the system finds at a path: a regular file and its bytes, a
    directory, a path that runs through something that is not a directory,
    or an entry the process may not read. *)
Inductive node : Type :=
| Regular (bytes : string)
| Directory
| Blocked
| Denied.

(** ** Exceptions and the error monad *)

Inductive exn : Type :=
| FileNotFoundError (path : string)
| IsADirectoryError (path : string)
| NotADirectoryError (path : string)
| PermissionError (path : string)
| UnicodeDecodeError
| JSONDecodeError
| KeyError (key : string)
| TypeError
| NameError (name : string)
| AttributeError (attr : string)
| IndexError
| ValueError
| OverflowError
| AssertionError (msg : string)
| ColumnNotFoundError (name : string).

Inductive result (A : Type) : Type :=
| Ok (a : A)
| Raise (e : exn).

Arguments Ok {A} a.
Arguments Raise {A} e.

Definition bind {A B : Type} (m : result A) (k : A -> result B) : result B :=
  match m with
  | Ok a => k a
  | Raise e => Raise e
  end.

Notation "'let!' x ':=' m 'in' k" := (bind m (fun x => k))
  (at level 10, x name, m at level 100, k at level 200).

(** ** Subscripts, iteration, truthiness *)

(** [d[k]] on the entries of a dict. *)
Fixpoint dict_get (k : string) (entries : list (string * value)) : option value :=
  match entries with
  | [] => None
  | (k', v) :: rest => if String.eqb k k' then Some v else dict_get k rest
  end.

(** [v[k]] with a string subscript: a dict looks the key up and raises
    KeyError when it is missing; a list or a str takes only integer indices,
    and the other values are not subscriptable at all: TypeError. *)
Definition getitem (v : value) (k : string) : result value :=
  match v with
  | VDict entries =>
      match dict_get k entries with
      | Some x => Ok x
      | None => Raise (KeyError k)
      end
  | _ => Raise TypeError
  end.

(** [for di in v]: the items of a list, the keys of a dict, the characters
    of a str; anything else is not iterable. *)
Definition iter (v : value) : result (list value) :=
  match v with
  | VList items => Ok items
  | VDict entries => Ok (map (fun kv => VStr (fst kv)) entries)
  | VStr s => Ok (map (fun c => VStr (String c EmptyString)) (list_ascii_of_string s))
  | _ => Raise TypeError
  end.

(** [if mask:] for [mask: str = None]: None and the empty string are falsy. *)
Definition truthy (mask : option string) : bool :=
  match mask with
  | None => false
  | Some EmptyString => false
  | Some (String _ _) => true
  end.

(** ** numpy: shape and column slices *)

Definition nrows (a : ndarray) : nat := fst (shape a).
Definition ncols (a : ndarray) : nat := snd (shape a).

(** [a[i, j]], read from the row-major buffer. *)
Definition item (a : ndarray) (i j : nat) : float :=
  nth (i * ncols a + j) (buffer a) 0%float.

(** The scalars of column [j], one per row, top to bottom. *)
Definition column_values (a : ndarray) (j : nat) : list value :=
  map (fun i => VFloat (item a i j)) (seq 0 (nrows a)).

(** [a[:, j]]: IndexError when the array has no column [j]. *)
Definition column (a : ndarray) (j : nat) : result (list value) :=
  if Nat.ltb j (ncols a) then Ok (column_values a j) else Raise IndexError.

(** [o.shape]: the tuple of dimensions of an array or of another shaped
    object; lists and plain values have no such attribute. *)
Definition getattr_shape (o : object) : result (list nat) :=
  match o with
  | OArray a => Ok [nrows a; ncols a]
  | OShaped dims => Ok dims
  | _ => Raise (AttributeError "shape")
  end.

(** [t[i]] on a tuple: IndexError past its end. *)
Definition tuple_index (t : list nat) (i : nat) : result nat :=
  match t !! i with
  | Some d => Ok d
  | None => Raise IndexError
  end.

(** ** Builtins: [zip] and [assert] *)

(** [zip] without the length check: tuples are produced until
    the shortest iterable runs out. *)
Fixpoint zip_shortest (iterables : list (list value)) : list (list value) :=
  match iterables with
  | [] => []
  | it :: rest =>
      match rest with
      | [] => map (fun x => [x]) it
      | _ :: _ => zip_with cons it (zip_shortest rest)
      end
  end.

Definition same_length (iterables : list (list value)) : bool :=
  match iterables with
  | [] => true
  | it :: rest => forallb (fun it' => Nat.eqb (length it') (length it)) rest
  end.

(** [zip] with its [strict] keyword, consumed to the end: with [strict=True]
    iterables of different lengths raise ValueError, with [strict=False]
    the result is cut at the shortest. *)
Definition zip (iterables : list (list value)) (strict : bool)
  : result (list (list value)) :=
  if strict && negb (same_length iterables)
  then Raise ValueError
  else Ok (zip_shortest iterables).

(** [assert cond, msg]: the message is evaluated only when [cond] is false,
    and an exception raised while evaluating it replaces the
    AssertionError. *)
Definition assert_ (cond : bool) (msg : result string) : result unit :=
  if cond then Ok tt else (let! m := msg in Raise (AssertionError m)).

(** A module-level name: NameError when it is not bound. *)
Definition name_lookup (name : string) (binding : option object) : result object :=
  match binding with
  | Some o => Ok o
  | None => Raise (NameError name)
  end.

(** ** polars: frames built from rows *)

Record DataFrame : Type := mkDataFrame {
  columns : list string;
  rows : list (list value)
}.

(** The data types of the notebook's own frame, as its printed head shows
    them: str, i64, f64. *)
Inductive dtype : Type := Utf8 | Int64 | Float64.

Definition dtype_eqb (d d' : dtype) : bool :=
  match d, d' with
  | Utf8, Utf8 | Int64, Int64 | Float64, Float64 => true
  | _, _ => false
  end.

Definition int64 (z : Z) : bool := ((- 2 ^ 63 <=? z) && (z <? 2 ^ 63))%Z.

(** An integer that no integer type of the frame can hold, signed or
    unsigned, up to 128 bits. *)
Definition too_wide (z : Z) : bool := ((z <? - 2 ^ 127) || (2 ^ 128 <=? z))%Z.

(** The type under which a cell is stored as it is: a str, an int of 64
    bits, a float.  Other cells (None, bool, wider ints, lists, dicts) have
    none here. *)
Definition dtype_of (v : value) : option dtype :=
  match v with
  | VStr _ => Some Utf8
  | VInt z => if int64 z then Some Int64 else None
  | VFloat _ => Some Float64
  | _ => None
  end.

(** The same, with every int counted as an integer whatever its size. *)
Definition loose_dtype_of (v : value) : option dtype :=
  match v with
  | VStr _ => Some Utf8
  | VInt _ => Some Int64
  | VFloat _ => Some Float64
  | _ => None
  end.

Definition wide (v : value) : bool :=
  match v with
  | VInt z => too_wide z
  | _ => false
  end.

(** Two rows of one width whose cells have, position by position, the same
    type under [typing]. *)
Fixpoint same_schema (typing : value -> option dtype) (r r' : list value) : bool :=
  match r, r' with
  | [], [] => true
  | v :: r, v' :: r' =>
      match typing v, typing v' with
      | Some d, Some d' => dtype_eqb d d' && same_schema typing r r'
      | _, _ => false
      end
  | _, _ => false
  end.

(** Rows the frame stores as they are: every column holds cells of one
    type among str, 64-bit int and float. *)
Definition stored_as_is (data : list (list value)) : bool :=
  match data with
  | [] => true
  | r :: _ => forallb (same_schema dtype_of r) data
  end.

(** Rows whose columns are each of one type, one integer column holding an
    int too wide for any integer type. *)
Definition int_overflow (data : list (list value)) : bool :=
  match data with
  | [] => false
  | r :: _ =>
      forallb (same_schema loose_dtype_of r) data && existsb (existsb wide) data
  end.

(** The positional names [column_0], [column_1], ... *)
Definition positional (width : nat) : list string :=
  map (fun i : nat => "column_" +:+ pretty i) (seq 0 width).

Fixpoint mapping_get (k : string) (mapping : list (string * string)) : option string :=
  match mapping with
  | [] => None
  | (k', v) :: rest => if String.eqb k k' then Some v else mapping_get k rest
  end.

(** The first key of [mapping] that names no column of the frame. *)
Definition missing_column (cols : list string) (mapping : list (string * string))
  : option string :=
  fst <$> List.find (fun kv => negb (existsb (String.eqb (fst kv)) cols)) mapping.

(** [df.rename(mapping)]: every column named by a key takes the key's value
    as its new name; rows are untouched.  With [strict] a key that names no
    column raises ColumnNotFoundError, without it the key is skipped. *)
Definition rename (strict : bool) (df : DataFrame)
    (mapping : list (string * string)) : result DataFrame :=
  match (if strict then missing_column (columns df) mapping else None) with
  | Some k => Raise (ColumnNotFoundError k)
  | None =>
      Ok {| columns := map (fun c => default c (mapping_get c mapping)) (columns df);
            rows := rows df |}
  end.

(** ** torch: the capability flags the notebook reads *)

Record torch : Type := mkTorch {
  cuda_is_available : bool;
  has_mps : bool
}.

(** ** Sample data used by the closed examples *)

Definition dquote : string := String (Ascii.ascii_of_nat 34) EmptyString.

(** A JSON string literal. *)
Definition jstr (s : string) : string := dquote +:+ s +:+ dquote.

(** A decoder given by a finite table from file text to parsed value; every
    other text is rejected. *)
Definition decoder_of_table (table : list (string * value)) (text : string)
  : option value :=
  dict_get text table.

Definition sample_document (content title : string) : value :=
  VDict [("content", VStr content); ("title", VStr title)].

(** A JSON object with the one key [docs], bound to an empty array, and
    its parse. *)
Definition masked_text : string := "{" +:+ jstr "docs" +:+ ": []}".
Definition masked_value : value := VDict [("docs", VList [])].

(** A JSON object whose only key is the empty string, bound to an empty
    array, and its parse. *)
Definition blank_key_text : string := "{" +:+ jstr "" +:+ ": []}".
Definition blank_key_value : value := VDict [("", VList [])].

Definition sample_decoder : string -> option value :=
  decoder_of_table
    [("[]", VList []);
     ("{}", VDict []);
     (masked_text, masked_value);
     (blank_key_text, blank_key_value)].

Definition sample_fs : gmap string node :=
  {[ "list.json" := Regular "[]";
     "empty.json" := Regular "{}";
     "masked.json" := Regular masked_text;
     "blank.json" := Regular blank_key_text;
     "broken.json" := Regular "{";
     "latin1.json" := Regular (String (Ascii.ascii_of_nat 255) EmptyString);
     "." := Directory;
     "data" := Directory;
     "list.json/part" := Blocked;
     "secret.json" := Denied ]}.

(** [str(Path(p))] on the sample paths: the empty path is the current
    directory, and a path in normal form is left as it is. *)
Definition sample_path_str (p : string) : string :=
  match p with
  | EmptyString => "."
  | _ => p
  end.

Definition is_ascii (c : Ascii.ascii) : bool :=
  match c with
  | Ascii.Ascii _ _ _ _ _ _ _ b7 => negb b7
  end.

(** The UTF-8 codec on the sample files: ASCII bytes are their own text,
    and the byte 255 occurs in no UTF-8 text. *)
Definition sample_utf8 (bytes : string) : option string :=
  if forallb is_ascii (list_ascii_of_string bytes) then Some bytes else None.

(** A stand-in for what polars does with rows of mixed types; the closed
    examples never get that far. *)
Definition no_coercion (data : list (list value)) : result (nat -> value -> value) :=
  Raise TypeError.

Definition five_documents : value :=
  VList [sample_document "one" "A"; sample_document "two" "B";
         sample_document "three" "C"; sample_document "four" "D";
         sample_document "five" "E"].

Definition five_topics : list value :=
  [VInt 4; VInt 4; VInt 0; VInt (-1); VInt 2].

Definition five_labels : list value :=
  [VStr "A"; VStr "B"; VStr "C"; VStr "D"; VStr "E"].

Definition five_points : ndarray :=
  {| shape := (5, 2);
     buffer := [10.5; 8.25; 10.0; 6.5; 10.25; 6.25; 10.75; 6.75; 9.25; 12.5]%float |}.

(** One point with three components, as a reducer set to three output
    dimensions returns it. *)
Definition point_3d : ndarray :=
  {| shape := (1, 3); buffer := [1.5; 2.5; 3.5]%float |}.

Definition one_point : ndarray :=
  {| shape := (1, 2); buffer := [1.5; 2.5]%float |}.

(** The notebook's own binding of [embeddings]: a list with one vector per
    document. *)
Definition notebook_embeddings (vectors : list object) : option object :=
  Some (OList vectors).

Definition one_vector : list object :=
  [OList [OValue (VFloat 0.5); OValue (VFloat 0.25); OValue (VFloat 0.125)]].

(** A JSON array of two Documents and its parse, with a file system that
    holds it. *)
Definition document_text (content title : string) : string :=
  "{" +:+ jstr "content" +:+ ": " +:+ jstr content +:+ ", "
      +:+ jstr "title" +:+ ": " +:+ jstr title +:+ "}".

Definition two_documents_text : string :=
  "[" +:+ document_text "one" "A" +:+ ", " +:+ document_text "two" "B" +:+ "]".

Definition two_documents : list value :=
  [sample_document "one" "A"; sample_document "two" "B"].

Definition two_documents_decoder : string -> option value :=
  decoder_of_table [(two_documents_text, VList two_documents)].

Definition two_documents_fs : gmap string node :=
  {[ ".data/polaroids.ai.data.json" := Regular two_documents_text ]}.

Definition three_points : ndarray :=
  {| shape := (3, 2); buffer := [10.5; 8.25; 10.0; 6.5; 10.25; 6.25]%float |}.

Definition two_points : ndarray :=
  {| shape := (2, 2); buffer := [10.5; 8.25; 10.0; 6.5]%float |}.

Section Notebook.

(** [str(Path(where))]: pathlib's normal form of the path. *)
Variable path_str : string -> string.

(** The UTF-8 codec, from the bytes of a file to its text, [None] when the
    bytes are not UTF-8. *)
Variable utf8_decode : string -> option string.

(** simplejson's decoder, from the text of a file to the parsed value,
    [None] when the text is not valid JSON. *)
Variable decode : string -> option value.

(** The module-level name [embeddings] when [prepare2d] runs, [None] when
    it is not bound. *)
Variable embeddings : option object.

(** Whether the polars release in use validates the keys of a rename
    mapping against the frame; the notebook pins no release. *)
Variable rename_strict : bool.

(** What polars does with rows that are neither stored as they are nor
    rejected for an int too wide: the exception it raises, or the cast it
    applies to the cell of column [j]. *)
Variable coerce : list (list value) -> result (nat -> value -> value).

(** ** The document loader *)

(** [open(file, encoding=...)] on a file system that maps a path to what
    the system finds there, nothing when the path has no entry.  The
    exception carries the path as it was passed. *)
Definition open (fs : gmap string node) (file : string) : result string :=
  match fs !! file with
  | Some (Regular bytes) => Ok bytes
  | Some Directory => Raise (IsADirectoryError file)
  | Some Blocked => Raise (NotADirectoryError file)
  | Some Denied => Raise (PermissionError file)
  | None => Raise (FileNotFoundError file)
  end.

(** [fin.read()]: the bytes are decoded when they are read. *)
Definition read (fin : string) : result string :=
  match utf8_decode fin with
  | Some text => Ok text
  | None => Raise UnicodeDecodeError
  end.

(** [json.load(fin)]: reads the file, then decodes the text; the decoder's
    rejection surfaces as JSONDecodeError. *)
Definition json_load (fin : string) : result value :=
  let! text := read fin in
  match decode text with
  | Some docs => Ok docs
  | None => Raise JSONDecodeError
  end.

Definition ignite_dataset (fs : gmap string node) (where_ : string)
    (mask : option string) : result value :=
  let! fin := open fs (path_str where_) in
  let! docs := json_load fin in
  match mask with
  | Some m => if truthy mask then getitem docs m else Ok docs
  | None => Ok docs
  end.

(** ** Texts and labels (cell 3) *)

(** [[f(di) for di in items]]: the first exception ends the comprehension. *)
Fixpoint comprehension (f : value -> result value) (items : list value)
  : result (list value) :=
  match items with
  | [] => Ok []
  | di :: rest =>
      let! x := f di in
      let! xs := comprehension f rest in
      Ok (x :: xs)
  end.

(** [documents = [di["content"] for di in docs]] then
    [labels = [di["title"] for di in docs]]. *)
Definition extract (docs : value) : result (list value * list value) :=
  let! items := iter docs in
  let! documents := comprehension (fun di => getitem di "content") items in
  let! items' := iter docs in
  let! labels := comprehension (fun di => getitem di "title") items' in
  Ok (documents, labels).

(** A Document is a mapping; it lacks field [k] when [k] is not among its
    keys, and [field k d v] reads the field. *)
Definition is_mapping (d : value) : Prop :=
  exists entries, d = VDict entries.

Definition lacks (k : string) (d : value) : Prop :=
  exists entries, d = VDict entries /\ dict_get k entries = None.

Definition field (k : string) (d v : value) : Prop :=
  getitem d k = Ok v.

(** ** The device selector *)

Definition maybe_cuda_or_mps (t : torch) : string :=
  if cuda_is_available t then "cuda:0"
  else if has_mps t then "mps"
  else "cpu".

(** ** The tabular view builder *)

Definition COLS_MAPPING : list (string * string) :=
  [("column_0", "text"); ("column_1", "topic"); ("column_2", "label");
   ("column_3", "x"); ("column_4", "y")].

(** The column names of the finished view. *)
Definition VIEW_COLUMNS : list string := ["text"; "topic"; "label"; "x"; "y"].

(** [pl.from_dicts] on an iterable of tuples: the tuples are the rows, in
    the order they come, and the columns get the positional names of the
    first row's width.  Rows whose columns are each of one stored type are
    kept as they are; an int too wide for any integer type raises
    OverflowError; other rows are coerced cell by cell or rejected, as the
    release decides.  No row gives a frame without columns. *)
Definition from_dicts (data : list (list value)) : result DataFrame :=
  match data with
  | [] => Ok {| columns := []; rows := [] |}
  | r :: _ =>
      if stored_as_is data
      then Ok {| columns := positional (length r); rows := data |}
      else if int_overflow data then Raise OverflowError
      else
        let! cast := coerce data in
        Ok {| columns := positional (length r); rows := map (imap cast) data |}
  end.

Definition prepare2d (docs topics labels : list value)
    (reduced_embeddings : ndarray) : result DataFrame :=
  let! _ := assert_ (Nat.eqb (snd (shape reduced_embeddings)) 2)
         (let! e := name_lookup "embeddings" embeddings in
          let! s := getattr_shape e in
          let! got := tuple_index s 1 in
          Ok ("Embeddings shape mismatch Exptected 2D, got "
                +:+ pretty got +:+ "D")) in
  let! xs := column reduced_embeddings 0 in
  let! ys := column reduced_embeddings 1 in
  let! data := zip [docs; topics; labels; xs; ys] false in
  let! pl_view := from_dicts data in
  rename rename_strict pl_view COLS_MAPPING.

(** A cell stored under type [k]. *)
Definition has_dtype (k : dtype) (v : value) : Prop :=
  dtype_of v = Some k.

(** ** The cells in sequence *)

(** The notebook run top to bottom: the file is loaded without a mask, the
    texts and labels are extracted, and the view is built from them, from
    the topics of the topic model and from the points of the reducer. *)
Definition pl_view (fs : gmap string node) (where_ : string)
    (topics : list value) (points : ndarray) : result DataFrame :=
  let! docs := ignite_dataset fs where_ None in
  let! extracted := extract docs in
  let documents := fst extracted in
  let labels := snd extracted in
  prepare2d documents topics labels points.

(** * Theorems *)

(** ** The loader *)

(** C10: with [mask] the empty string the loader behaves as with no mask:
    the two calls agree on every file system and path, the call never raises
    KeyError, and on a file that opens and parses it returns the whole
    parsed structure. *)
Theorem ignite_dataset_empty_mask (fs : gmap string node) (where_ : string) :
  ignite_dataset fs where_ (Some "") = ignite_dataset fs where_ None /\
  (forall k, ignite_dataset fs where_ (Some "") <> Raise (KeyError k)) /\
  (forall bytes text docs,
      fs !! path_str where_ = Some (Regular bytes) ->
      utf8_decode bytes = Some text -> decode text = Some docs ->
      ignite_dataset fs where_ (Some "") = Ok docs).
Proof.
  unfold ignite_dataset, open, json_load, read.
  split; [reflexivity|]. split.
  - intros k. destruct (fs !! path_str where_) as [[bytes| | |]|]; simpl;
      try discriminate.
    destruct (utf8_decode bytes) as [text|]; simpl; [|discriminate].
    destruct (decode text); simpl; discriminate.
  - intros bytes text docs -> Htext Hdocs. simpl. rewrite Htext. simpl.
    rewrite Hdocs. reflexivity.
Qed.

(** C6 (amended): on a file that opens and parses, the loader returns the
    value at the top-level key [mask] when [mask] is a non-empty string and
    the parsed structure has that key, and the whole parsed structure when
    no mask is given. *)
Theorem ignite_dataset_returns (fs : gmap string node)
    (where_ bytes text : string) (docs : value) :
  fs !! path_str where_ = Some (Regular bytes) ->
  utf8_decode bytes = Some text -> decode text = Some docs ->
  (forall mask v, mask <> "" -> getitem docs mask = Ok v ->
     ignite_dataset fs where_ (Some mask) = Ok v) /\
  ignite_dataset fs where_ None = Ok docs.
Proof.
  intros Hfs Htext Hdocs. unfold ignite_dataset, open, json_load, read.
  rewrite Hfs. simpl. rewrite Htext. simpl. rewrite Hdocs. simpl.
  split; [|reflexivity].
  intros [|c m] v Hne Hv; [congruence|exact Hv].
Qed.

(** C7 (amended): a path at which the system finds no entry fails with
    FileNotFoundError, which carries the path in pathlib's normal form; a
    file whose text the decoder rejects fails with JSONDecodeError; and a
    non-empty mask that is not a key of the parsed object fails with
    KeyError.  The result is the exception, never a collection. *)
Theorem ignite_dataset_failures (fs : gmap string node) (where_ : string) :
  (fs !! path_str where_ = None ->
   forall mask,
     ignite_dataset fs where_ mask = Raise (FileNotFoundError (path_str where_))) /\
  (forall bytes text,
     fs !! path_str where_ = Some (Regular bytes) ->
     utf8_decode bytes = Some text -> decode text = None ->
     forall mask, ignite_dataset fs where_ mask = Raise JSONDecodeError) /\
  (forall bytes text entries m,
     fs !! path_str where_ = Some (Regular bytes) ->
     utf8_decode bytes = Some text -> decode text = Some (VDict entries) ->
     m <> "" -> dict_get m entries = None ->
     ignite_dataset fs where_ (Some m) = Raise (KeyError m)).
Proof.
  unfold ignite_dataset, open, json_load, read. repeat split.
  - intros Hfs mask. rewrite Hfs. reflexivity.
  - intros bytes text Hfs Htext Hbad mask. rewrite Hfs. simpl.
    rewrite Htext. simpl. rewrite Hbad. reflexivity.
  - intros bytes text entries [|c m] Hfs Htext Hdocs Hne Hkey; [congruence|].
    rewrite Hfs. simpl. rewrite Htext. simpl. rewrite Hdocs. simpl.
    rewrite Hkey. reflexivity.
Qed.

(** What else the system can find at the path, and bytes that are not
    UTF-8: each ends the call before any JSON is decoded, whatever the
    mask. *)
Lemma ignite_dataset_os_errors (fs : gmap string node) (where_ : string)
    (mask : option string) :
  (fs !! path_str where_ = Some Directory ->
   ignite_dataset fs where_ mask = Raise (IsADirectoryError (path_str where_))) /\
  (fs !! path_str where_ = Some Blocked ->
   ignite_dataset fs where_ mask = Raise (NotADirectoryError (path_str where_))) /\
  (fs !! path_str where_ = Some Denied ->
   ignite_dataset fs where_ mask = Raise (PermissionError (path_str where_))) /\
  (forall bytes,
     fs !! path_str where_ = Some (Regular bytes) -> utf8_decode bytes = None ->
     ignite_dataset fs where_ mask = Raise UnicodeDecodeError).
Proof.
  unfold ignite_dataset, open, json_load, read. repeat split.
  - intros ->. reflexivity.
  - intros ->. reflexivity.
  - intros ->. reflexivity.
  - intros bytes -> Hbad. simpl. rewrite Hbad. reflexivity.
Qed.

(** ** The text/label extraction *)

Lemma comprehension_Ok (f : value -> result value) (items vs : list value) :
  comprehension f items = Ok vs <-> Forall2 (fun d v => f d = Ok v) items vs.
Proof.
  revert vs. induction items as [|d items IH]; intros vs; simpl.
  - split.
    + intros [= <-]. constructor.
    + intros H. inversion H. reflexivity.
  - destruct (f d) as [x|e] eqn:Hd; simpl.
    + destruct (comprehension f items) as [xs|e] eqn:Hrest; simpl.
      * split.
        -- intros [= <-]. constructor; [exact Hd|]. apply IH. reflexivity.
        -- intros H. inversion H as [|? v ? vs' Hv Hvs]; subst.
           apply IH in Hvs. congruence.
      * split; [discriminate|].
        intros H. inversion H as [|? v ? vs' Hv Hvs]; subst.
        apply IH in Hvs. discriminate.
    + split; [discriminate|].
      intros H. inversion H; subst. congruence.
Qed.

Lemma getitem_mapping (k : string) (d : value) :
  is_mapping d -> lacks k d \/ exists v, field k d v.
Proof.
  intros [entries ->]. unfold lacks, field. simpl.
  destruct (dict_get k entries) as [v|] eqn:Hk.
  - right. exists v. reflexivity.
  - left. exists entries. split; [reflexivity|exact Hk].
Qed.

Lemma getitem_lacks (k : string) (d : value) :
  lacks k d -> getitem d k = Raise (KeyError k).
Proof. intros (entries & -> & Hk). simpl. rewrite Hk. reflexivity. Qed.

(** Over mappings the comprehension either reads field [k] of every item or
    stops with [KeyError k]. *)
Lemma comprehension_field (k : string) (items : list value) :
  Forall is_mapping items ->
  (Exists (lacks k) items /\
   comprehension (fun di => getitem di k) items = Raise (KeyError k)) \/
  (exists vs, comprehension (fun di => getitem di k) items = Ok vs).
Proof.
  induction 1 as [|d items Hd _ IH]; simpl.
  - right. exists []. reflexivity.
  - destruct (getitem_mapping k d Hd) as [Hno|[v Hv]].
    + left. split; [left; exact Hno|].
      rewrite (getitem_lacks _ _ Hno). reflexivity.
    + unfold field in Hv. rewrite Hv. simpl.
      destruct IH as [[Hex Hraise]|[vs Hvs]].
      * left. split; [right; exact Hex|]. rewrite Hraise. reflexivity.
      * right. exists (v :: vs). rewrite Hvs. reflexivity.
Qed.

Lemma comprehension_lacks (k : string) (items : list value) :
  Forall is_mapping items -> Exists (lacks k) items ->
  comprehension (fun di => getitem di k) items = Raise (KeyError k).
Proof.
  intros Hmap Hex.
  destruct (comprehension_field k items Hmap) as [[_ H]|[vs Hvs]]; [exact H|].
  exfalso. apply comprehension_Ok in Hvs.
  induction Hvs as [|d v items vs Hv _ IH].
  - inversion Hex.
  - inversion Hmap; subst. inversion Hex as [? ? Hno|? ? Hrest]; subst.
    + rewrite (getitem_lacks _ _ Hno) in Hv. discriminate.
    + auto.
Qed.

(** C3: when every item of the collection is a Document (a mapping) and some
    Document lacks the [content] or the [title] field, the extraction fails
    with the KeyError of that field, the schema error of the pipeline. *)
Theorem extract_missing_field (items : list value) :
  Forall is_mapping items ->
  Exists (fun d => lacks "content" d \/ lacks "title" d) items ->
  exists k, (k = "content" \/ k = "title") /\
            extract (VList items) = Raise (KeyError k).
Proof.
  intros Hmap Hex. unfold extract. simpl.
  destruct (comprehension_field "content" items Hmap) as [[_ Hraise]|[vs Hvs]].
  - exists "content". split; [left; reflexivity|]. rewrite Hraise. reflexivity.
  - exists "title". split; [right; reflexivity|]. rewrite Hvs. simpl.
    rewrite comprehension_lacks; [reflexivity|exact Hmap|].
    apply comprehension_Ok in Hvs.
    clear Hmap. induction Hvs as [|d v items vs Hv _ IH].
    + inversion Hex.
    + inversion Hex as [? ? [Hc|Ht]|? ? Hrest]; subst.
      * rewrite (getitem_lacks _ _ Hc) in Hv. discriminate.
      * left. exact Ht.
      * right. auto.
Qed.

(** On Documents that all have both fields the extraction succeeds, and its
    two results match the collection item by item. *)
Lemma extract_fields (items : list value) :
  Forall (fun d => (exists c, field "content" d c) /\ (exists t, field "title" d t))
         items ->
  exists texts labels,
    extract (VList items) = Ok (texts, labels) /\
    Forall2 (field "content") items texts /\
    Forall2 (field "title") items labels.
Proof.
  intros Hvalid.
  assert (Hfield : forall k,
             Forall (fun d => exists v, field k d v) items ->
             exists vs, Forall2 (field k) items vs).
  { intros k Hk. clear Hvalid. induction Hk as [|d items' Hd _ IH].
    - exists []. constructor.
    - destruct Hd as [v Hv]. destruct IH as [vs IH].
      exists (v :: vs). constructor; assumption. }
  destruct (Hfield "content") as [texts Htexts].
  { eapply Forall_impl; [exact Hvalid|]. intros d [H _]. exact H. }
  destruct (Hfield "title") as [labels Hlabels].
  { eapply Forall_impl; [exact Hvalid|]. intros d [_ H]. exact H. }
  exists texts, labels. unfold extract. simpl.
  rewrite (proj2 (comprehension_Ok _ _ _) Htexts). simpl.
  rewrite (proj2 (comprehension_Ok _ _ _) Hlabels). simpl.
  auto.
Qed.

(** C9: on a collection of [n] Documents that all have the [content] and the
    [title] field, the extraction returns [n] texts and [n] labels, the
    [i]-th text being the [content] and the [i]-th label the [title] of
    Document [i]. *)
Theorem extract_valid (items : list value) :
  Forall (fun d => (exists c, field "content" d c) /\ (exists t, field "title" d t))
         items ->
  exists texts labels,
    extract (VList items) = Ok (texts, labels) /\
    length texts = length items /\
    length labels = length items /\
    forall i d, items !! i = Some d ->
      (exists c, texts !! i = Some c /\ field "content" d c) /\
      (exists t, labels !! i = Some t /\ field "title" d t).
Proof.
  intros Hvalid.
  destruct (extract_fields items Hvalid) as (texts & labels & Hex & Htexts & Hlabels).
  exists texts, labels.
  split; [exact Hex|].
  split; [symmetry; eapply Forall2_length; exact Htexts|].
  split; [symmetry; eapply Forall2_length; exact Hlabels|].
  intros i d Hi. split.
  - destruct (Forall2_lookup_l _ _ _ _ _ Htexts Hi) as (c & Hc & Hfc). eauto.
  - destruct (Forall2_lookup_l _ _ _ _ _ Hlabels Hi) as (t & Ht & Hft). eauto.
Qed.

(** ** The device selector *)

(** C8: the selector answers [cuda:0] whenever the primary accelerator is
    available, otherwise [mps] whenever the secondary one is, otherwise
    [cpu]; the answer is one of the three tags and depends only on the two
    capability flags. *)
Theorem maybe_cuda_or_mps_policy (t : torch) :
  (cuda_is_available t = true -> maybe_cuda_or_mps t = "cuda:0") /\
  (cuda_is_available t = false -> has_mps t = true ->
   maybe_cuda_or_mps t = "mps") /\
  (cuda_is_available t = false -> has_mps t = false ->
   maybe_cuda_or_mps t = "cpu") /\
  (maybe_cuda_or_mps t = "cuda:0" \/ maybe_cuda_or_mps t = "mps" \/
   maybe_cuda_or_mps t = "cpu") /\
  (forall t', cuda_is_available t' = cuda_is_available t ->
              has_mps t' = has_mps t ->
              maybe_cuda_or_mps t' = maybe_cuda_or_mps t).
Proof.
  unfold maybe_cuda_or_mps. repeat split.
  - intros ->. reflexivity.
  - intros -> ->. reflexivity.
  - intros -> ->. reflexivity.
  - destruct (cuda_is_available t), (has_mps t); auto.
  - intros t' -> ->. reflexivity.
Qed.

(** ** The tabular view *)

Lemma lookup_map {A B : Type} (f : A -> B) (l : list A) (i : nat) :
  map f l !! i = f <$> (l !! i).
Proof.
  revert i. induction l as [|a l IH]; intros [|i]; simpl; auto.
Qed.

Lemma column_values_length (a : ndarray) (j : nat) :
  length (column_values a j) = nrows a.
Proof. unfold column_values. rewrite length_map, length_seq. reflexivity. Qed.

Lemma column_values_lookup (a : ndarray) (i j : nat) :
  i < nrows a -> column_values a j !! i = Some (VFloat (item a i j)).
Proof.
  intros Hi. unfold column_values.
  rewrite lookup_map, lookup_seq_lt by exact Hi. reflexivity.
Qed.

Section Zip5.

Variables a b c d e : list value.

Lemma zip5_length :
  length (zip_shortest [a; b; c; d; e])
  = length a `min` (length b `min` (length c `min` (length d `min` length e))).
Proof. simpl. rewrite !length_zip_with, length_map. reflexivity. Qed.

Lemma zip5_lookup (i : nat) (va vb vc vd ve : value) :
  a !! i = Some va -> b !! i = Some vb -> c !! i = Some vc ->
  d !! i = Some vd -> e !! i = Some ve ->
  zip_shortest [a; b; c; d; e] !! i = Some [va; vb; vc; vd; ve].
Proof.
  intros Ha Hb Hc Hd He. simpl.
  rewrite !lookup_zip_with, lookup_map, Ha, Hb, Hc, Hd, He. reflexivity.
Qed.

Lemma zip5_head (r : list value) (rest : list (list value)) :
  zip_shortest [a; b; c; d; e] = r :: rest -> length r = 5.
Proof.
  destruct a, b, c, d, e; simpl; try discriminate.
  intros [= <- _]. reflexivity.
Qed.

End Zip5.

Lemma zip5_Forall (P : list value -> Prop) (a b c d e : list value) :
  (forall va vb vc vd ve,
     va ∈ a -> vb ∈ b -> vc ∈ c -> vd ∈ d -> ve ∈ e ->
     P [va; vb; vc; vd; ve]) ->
  Forall P (zip_shortest [a; b; c; d; e]).
Proof.
  revert b c d e.
  induction a as [|va a IH]; intros [|vb b] [|vc c] [|vd d] [|ve e] H;
    simpl; try constructor.
  - apply H; left.
  - apply IH. intros. apply H; right; assumption.
Qed.

Lemma forallb_Forall {A : Type} (f : A -> bool) (l : list A) :
  Forall (fun x => f x = true) l -> forallb f l = true.
Proof.
  induction 1 as [|x l Hx _ IH]; simpl; [reflexivity|].
  rewrite Hx, IH. reflexivity.
Qed.

Lemma dtype_eqb_refl (d : dtype) : dtype_eqb d d = true.
Proof. destruct d; reflexivity. Qed.

Lemma column_values_float (a : ndarray) (j : nat) :
  Forall (has_dtype Float64) (column_values a j).
Proof.
  unfold column_values. induction (seq 0 (nrows a)); constructor;
    [reflexivity|assumption].
Qed.

(** Five sequences that are each of one stored type zip to rows the frame
    stores as they are. *)
Lemma zip5_stored (ka kb kc kd ke : dtype) (a b c d e : list value) :
  Forall (has_dtype ka) a -> Forall (has_dtype kb) b ->
  Forall (has_dtype kc) c -> Forall (has_dtype kd) d ->
  Forall (has_dtype ke) e ->
  stored_as_is (zip_shortest [a; b; c; d; e]) = true.
Proof.
  intros Ha Hb Hc Hd He.
  assert (Hrows : Forall (fun r =>
                    exists va vb vc vd ve,
                      r = [va; vb; vc; vd; ve] /\
                      has_dtype ka va /\ has_dtype kb vb /\ has_dtype kc vc /\
                      has_dtype kd vd /\ has_dtype ke ve)
                    (zip_shortest [a; b; c; d; e])).
  { apply zip5_Forall. intros va vb vc vd ve Hva Hvb Hvc Hvd Hve.
    rewrite Forall_forall in Ha, Hb, Hc, Hd, He.
    exists va, vb, vc, vd, ve. auto 10. }
  destruct (zip_shortest [a; b; c; d; e]) as [|r rest]; [reflexivity|].
  unfold stored_as_is. apply forallb_Forall.
  pose proof (Forall_inv Hrows) as (ua & ub & uc & ud & ue & -> & Ua & Ub & Uc & Ud & Ue).
  eapply Forall_impl; [exact Hrows|].
  intros r' (va & vb & vc & vd & ve & -> & Va & Vb & Vc & Vd & Ve).
  unfold has_dtype in *. simpl.
  rewrite Ua, Ub, Uc, Ud, Ue, Va, Vb, Vc, Vd, Ve, !dtype_eqb_refl. reflexivity.
Qed.

(** The frame of rows that are stored as they are. *)
Lemma from_dicts_stored (r : list value) (rest : list (list value)) :
  stored_as_is (r :: rest) = true ->
  from_dicts (r :: rest)
  = Ok {| columns := positional (length r); rows := r :: rest |}.
Proof. intros H. unfold from_dicts. rewrite H. reflexivity. Qed.

Lemma same_rows_length (data : list (list value)) :
  Forall2 (fun r0 r1 : list value => length r1 = length r0) data data.
Proof. induction data; constructor; auto. Qed.

Lemma imap_rows_length (cast : nat -> value -> value) (data : list (list value)) :
  Forall2 (fun r0 r1 : list value => length r1 = length r0)
          data (map (imap cast) data).
Proof. induction data; constructor; [apply length_imap|assumption]. Qed.

(** A frame [from_dicts] returns has the positional names of the first row
    and one row per tuple, each as long as its tuple. *)
Lemma from_dicts_shape (data : list (list value)) (f : DataFrame) :
  from_dicts data = Ok f ->
  match data with
  | [] => f = {| columns := []; rows := [] |}
  | r :: _ =>
      columns f = positional (length r) /\
      Forall2 (fun r0 r1 => length r1 = length r0) data (rows f)
  end.
Proof.
  unfold from_dicts. destruct data as [|r rest].
  - intros [= <-]. reflexivity.
  - destruct (stored_as_is (r :: rest)).
    + intros [= <-]. split; [reflexivity|].
      exact (same_rows_length (r :: rest)).
    + destruct (int_overflow (r :: rest)); [discriminate|].
      destruct (coerce (r :: rest)) as [cast|]; cbn [bind]; [|discriminate].
      intros [= <-]. split; [reflexivity|].
      exact (imap_rows_length cast (r :: rest)).
Qed.

(** Renaming the five positional columns. *)
Lemma rename_positional (data : list (list value)) :
  rename rename_strict {| columns := positional 5; rows := data |} COLS_MAPPING
  = Ok {| columns := VIEW_COLUMNS; rows := data |}.
Proof. destruct rename_strict; vm_compute; reflexivity. Qed.

(** Without rows there is no column to rename. *)
Lemma rename_no_columns :
  rename rename_strict {| columns := []; rows := [] |} COLS_MAPPING
  = if rename_strict then Raise (ColumnNotFoundError "column_0")
    else Ok {| columns := []; rows := [] |}.
Proof. destruct rename_strict; reflexivity. Qed.

(** Past the assertion the builder zips the five sequences, makes the frame
    and renames its columns. *)
Lemma prepare2d_2d (docs topics labels : list value) (pts : ndarray) :
  ncols pts = 2 ->
  prepare2d docs topics labels pts
  = let! pl_view := from_dicts (zip_shortest [docs; topics; labels;
                                              column_values pts 0;
                                              column_values pts 1]) in
    rename rename_strict pl_view COLS_MAPPING.
Proof.
  intros Hc. unfold prepare2d, column. unfold ncols in *. rewrite Hc.
  reflexivity.
Qed.

(** The number of rows the zip yields. *)
Lemma view_length (docs topics labels : list value) (pts : ndarray) :
  length (zip_shortest [docs; topics; labels;
                        column_values pts 0; column_values pts 1])
  = length docs `min` (length topics `min` (length labels `min` nrows pts)).
Proof. rewrite zip5_length, !column_values_length. lia. Qed.

Lemma prepare2d_table (kd kt kl : dtype) (docs topics labels : list value)
    (pts : ndarray) :
  Forall (has_dtype kd) docs -> Forall (has_dtype kt) topics ->
  Forall (has_dtype kl) labels ->
  ncols pts = 2 ->
  1 <= length docs `min` (length topics `min` (length labels `min` nrows pts)) ->
  prepare2d docs topics labels pts
  = Ok {| columns := VIEW_COLUMNS;
          rows := zip_shortest [docs; topics; labels;
                                column_values pts 0; column_values pts 1] |}.
Proof.
  intros Hd Ht Hl Hc Hm. rewrite prepare2d_2d by exact Hc.
  rewrite <- view_length in Hm.
  pose proof (zip5_stored kd kt kl Float64 Float64 docs topics labels
                (column_values pts 0) (column_values pts 1) Hd Ht Hl
                (column_values_float pts 0) (column_values_float pts 1)) as Hs.
  destruct (zip_shortest _) as [|r rest] eqn:Hdata.
  - simpl in Hm. lia.
  - rewrite (from_dicts_stored r rest Hs). simpl bind.
    rewrite (zip5_head _ _ _ _ _ _ _ Hdata). apply rename_positional.
Qed.



(** When the assertion fails its message is evaluated first: the message
    reads the module-level [embeddings], not the argument, so the exception
    that leaves the builder depends on that binding.  No table is returned
    in any case. *)
Lemma prepare2d_not_2d (docs topics labels : list value) (pts : ndarray) :
  ncols pts <> 2 ->
  prepare2d docs topics labels pts
  = Raise match embeddings with
          | None => NameError "embeddings"
          | Some (OArray a) =>
              AssertionError ("Embeddings shape mismatch Exptected 2D, got "
                                +:+ pretty (ncols a) +:+ "D")
          | Some (OShaped dims) =>
              match dims !! 1 with
              | Some got =>
                  AssertionError ("Embeddings shape mismatch Exptected 2D, got "
                                    +:+ pretty got +:+ "D")
              | None => IndexError
              end
          | Some _ => AttributeError "shape"
          end.
Proof.
  intros Hc. unfold prepare2d, assert_. unfold ncols in *.
  destruct (Nat.eqb_spec (snd (shape pts)) 2) as [Heq|_]; [contradiction|].
  destruct embeddings as [[| | |dims]|]; try reflexivity.
  simpl. unfold tuple_index. destruct (dims !! 1); reflexivity.
Qed.

(** C1 (amended): sequences of unequal length are not rejected.  On points
    with two columns the builder stops at the shortest of the four
    sequences: when none of them is empty and each holds cells of one
    stored type (str, 64-bit int or float), it returns the table of the
    first [m] positions, [m] the least of the four lengths, with row [i]
    made of position [i] of each sequence. *)
Theorem prepare2d_truncates (kd kt kl : dtype) (docs topics labels : list value)
    (pts : ndarray) :
  Forall (has_dtype kd) docs -> Forall (has_dtype kt) topics ->
  Forall (has_dtype kl) labels ->
  ncols pts = 2 ->
  1 <= length docs `min` (length topics `min` (length labels `min` nrows pts)) ->
  exists t,
    prepare2d docs topics labels pts = Ok t /\
    columns t = VIEW_COLUMNS /\
    length (rows t)
    = length docs `min` (length topics `min` (length labels `min` nrows pts)) /\
    forall i d tp l,
      docs !! i = Some d -> topics !! i = Some tp -> labels !! i = Some l ->
      i < nrows pts ->
      rows t !! i = Some [d; tp; l; VFloat (item pts i 0); VFloat (item pts i 1)].
Proof.
  intros Hd Ht Hl Hc Hm. eexists.
  split; [apply (prepare2d_table kd kt kl); assumption|].
  cbn [rows columns]. split; [reflexivity|].
  split; [apply view_length|].
  intros i d tp l Hdi Htpi Hli Hi.
  apply zip5_lookup; auto using column_values_lookup.
Qed.


Lemma field_functional (k : string) (d v v' : value) :
  field k d v -> field k d v' -> v = v'.
Proof. unfold field. congruence. Qed.

(** C5 (amended): from a collection of 5 Documents that all have [content]
    and [title], with 5 topics, 5 labels and 5 points of two columns, the
    contents, topics and labels each of one stored type (str, 64-bit int or
    float), the extraction yields the texts and the builder, fed with them,
    returns a table of exactly 5 rows whose columns are text, topic, label,
    x, y in that order. *)
Theorem five_documents_view (kd kt kl : dtype) (items topics labels : list value)
    (pts : ndarray) :
  length items = 5 ->
  Forall (fun d => (exists c, field "content" d c /\ has_dtype kd c) /\
                   (exists t, field "title" d t))
         items ->
  Forall (has_dtype kt) topics -> Forall (has_dtype kl) labels ->
  length topics = 5 -> length labels = 5 -> shape pts = (5, 2) ->
  exists documents titles t,
    extract (VList items) = Ok (documents, titles) /\
    prepare2d documents topics labels pts = Ok t /\
    length (rows t) = 5 /\
    columns t = ["text"; "topic"; "label"; "x"; "y"].
Proof.
  intros Hitems Hvalid Kt Kl Ht Hl Hshape.
  destruct (extract_fields items) as (documents & titles & Hex & Hdocs & _).
  { eapply Forall_impl; [exact Hvalid|]. intros d [(c & Hc & _) Htitle]. eauto. }
  assert (Kd : Forall (has_dtype kd) documents).
  { clear Hex Hitems. induction Hdocs as [|d v items documents Hv _ IH];
      constructor; inversion Hvalid as [|? ? [(c & Hc & Hk) _] Hrest]; subst.
    - rewrite (field_functional _ _ _ _ Hv Hc). exact Hk.
    - apply IH. exact Hrest. }
  apply Forall2_length in Hdocs.
  assert (Hc : ncols pts = 2) by (unfold ncols; rewrite Hshape; reflexivity).
  assert (Hn : nrows pts = 5) by (unfold nrows; rewrite Hshape; reflexivity).
  exists documents, titles. eexists.
  split; [exact Hex|].
  split; [apply (prepare2d_table kd kt kl); [assumption..|lia]|].
  cbn [rows columns]. split; [|reflexivity].
  rewrite view_length. lia.
Qed.

(** * Further properties *)

(** ** The loader *)


(** ** The text/label extraction *)

Lemma field_is_mapping (k : string) (d v : value) : field k d v -> is_mapping d.
Proof. unfold field. destruct d; try discriminate. intros _. eexists. reflexivity. Qed.

(** X2: the extraction returns only when every item is a mapping that has
    both fields: the texts and the labels then match the items one by one,
    no item is skipped and no default is filled in. *)
Theorem extract_sound (docs : value) (texts labels : list value) :
  extract docs = Ok (texts, labels) ->
  exists items,
    iter docs = Ok items /\
    Forall is_mapping items /\
    Forall2 (field "content") items texts /\
    Forall2 (field "title") items labels.
Proof.
  unfold extract. destruct (iter docs) as [items|] eqn:Hiter; simpl; [|discriminate].
  destruct (comprehension _ items) as [ts|] eqn:Hts; simpl; [|discriminate].
  destruct (comprehension _ items) as [ls|] eqn:Hls in |- *; simpl; [|discriminate].
  intros [= <- <-]. apply comprehension_Ok in Hts, Hls.
  exists items. split; [reflexivity|]. split; [|split; assumption].
  clear Hls Hiter. induction Hts as [|d v ? ? Hv _ IH]; constructor;
    eauto using field_is_mapping.
Qed.

Lemma comprehension_getitem_error (k : string) (items : list value) (e : exn) :
  comprehension (fun di => getitem di k) items = Raise e ->
  e = TypeError \/ e = KeyError k.
Proof.
  induction items as [|d items IH]; simpl; [discriminate|].
  destruct (getitem d k) as [x|e'] eqn:Hd; simpl.
  - destruct (comprehension _ items) as [xs|e'']; simpl; [discriminate|].
    intros [= <-]. apply IH. reflexivity.
  - intros [= <-]. destruct d; simpl in Hd; try (left; congruence).
    destruct (dict_get k entries); [discriminate|]. right. congruence.
Qed.

(** X3: the extraction fails in three ways only: TypeError (the structure
    is not iterable, or an item is not a mapping), KeyError of [content] and
    KeyError of [title]. *)
Theorem extract_error_set (docs : value) (e : exn) :
  extract docs = Raise e ->
  e = TypeError \/ e = KeyError "content" \/ e = KeyError "title".
Proof.
  unfold extract. destruct (iter docs) as [items|e'] eqn:Hiter; simpl.
  - destruct (comprehension _ items) as [ts|e1] eqn:Hts; simpl.
    + destruct (comprehension _ items) as [ls|e2] eqn:Hls in |- *; simpl;
        [discriminate|].
      intros [= <-]. apply comprehension_getitem_error in Hls. tauto.
    + intros [= <-]. apply comprehension_getitem_error in Hts. tauto.
  - intros [= <-]. destruct docs; simpl in Hiter; try discriminate; left; congruence.
Qed.

(** X4: all the texts are read before any label.  A Document without
    [content] anywhere in the collection makes the extraction end in the
    KeyError of [content], also when an earlier Document lacks [title]; the
    KeyError of [title] shows only when every Document has [content]. *)
Theorem extract_content_first (items : list value) :
  Forall is_mapping items ->
  (Exists (lacks "content") items ->
   extract (VList items) = Raise (KeyError "content")) /\
  (Forall (fun d => exists c, field "content" d c) items ->
   Exists (lacks "title") items ->
   extract (VList items) = Raise (KeyError "title")).
Proof.
  intros Hmap. unfold extract. simpl. split.
  - intros Hex. rewrite comprehension_lacks by assumption. reflexivity.
  - intros Hall Hex.
    destruct (comprehension_field "content" items Hmap) as [[Hno _]|[vs Hvs]].
    + exfalso. clear Hex Hmap. induction Hall as [|d items [c Hc] _ IH].
      * inversion Hno.
      * inversion Hno as [? ? Hd|? ? Hrest]; subst; [|auto].
        unfold field in Hc. rewrite (getitem_lacks _ _ Hd) in Hc. discriminate.
    + rewrite Hvs. simpl. rewrite comprehension_lacks by assumption. reflexivity.
Qed.

Lemma comprehension_ext (f g : value -> result value) (items items' : list value) :
  Forall2 (fun d d' => f d = g d') items items' ->
  comprehension f items = comprehension g items'.
Proof.
  induction 1 as [|d d' items items' Hd _ IH]; simpl; [reflexivity|].
  rewrite Hd, IH. reflexivity.
Qed.

(** X5: the extraction reads nothing but the two fields: two collections
    whose Documents agree, one by one, on [di["content"]] and on
    [di["title"]] give the same result, be it the two sequences or the
    exception. *)
Theorem extract_two_fields_only (items items' : list value) :
  Forall2 (fun d d' => getitem d "content" = getitem d' "content" /\
                       getitem d "title" = getitem d' "title") items items' ->
  extract (VList items) = extract (VList items').
Proof.
  intros H. unfold extract. simpl.
  rewrite (comprehension_ext (fun di => getitem di "content")
             (fun di => getitem di "content") items items').
  2:{ eapply Forall2_impl; [exact H|]. intros d d' [Hc _]. exact Hc. }
  rewrite (comprehension_ext (fun di => getitem di "title")
             (fun di => getitem di "title") items items').
  2:{ eapply Forall2_impl; [exact H|]. intros d d' [_ Ht]. exact Ht. }
  reflexivity.
Qed.

Lemma comprehension_app (f : value -> result value) (a b : list value) :
  comprehension f (a ++ b)
  = let! xs := comprehension f a in
    let! ys := comprehension f b in
    Ok (xs ++ ys)%list.
Proof.
  induction a as [|d a IH]; simpl.
  - destruct (comprehension f b); reflexivity.
  - destruct (f d) as [x|e]; simpl; [|reflexivity].
    rewrite IH. destruct (comprehension f a) as [xs|e]; simpl; [|reflexivity].
    destruct (comprehension f b); reflexivity.
Qed.

(** X6: extraction goes through concatenation: when two collections are
    extracted successfully, their concatenation yields the concatenated
    texts and the concatenated labels. *)
Theorem extract_app (a b ta la tb lb : list value) :
  extract (VList a) = Ok (ta, la) ->
  extract (VList b) = Ok (tb, lb) ->
  extract (VList (a ++ b)) = Ok ((ta ++ tb)%list, (la ++ lb)%list).
Proof.
  unfold extract. simpl. intros Ha Hb.
  rewrite !comprehension_app.
  destruct (comprehension (fun di => getitem di "content") a) as [xa|];
    simpl in *; [|discriminate].
  destruct (comprehension (fun di => getitem di "title") a) as [ya|];
    simpl in *; [|discriminate].
  destruct (comprehension (fun di => getitem di "content") b) as [xb|];
    simpl in *; [|discriminate].
  destruct (comprehension (fun di => getitem di "title") b) as [yb|];
    simpl in *; [|discriminate].
  congruence.
Qed.

(** ** The device selector *)

(** X7: the tag tells which branch was taken: [cuda:0] is answered exactly
    when the primary accelerator is available, [mps] exactly when it is not
    and the secondary one is, [cpu] exactly when neither is. *)
Theorem maybe_cuda_or_mps_inv (t : torch) :
  (maybe_cuda_or_mps t = "cuda:0" <-> cuda_is_available t = true) /\
  (maybe_cuda_or_mps t = "mps" <->
   cuda_is_available t = false /\ has_mps t = true) /\
  (maybe_cuda_or_mps t = "cpu" <->
   cuda_is_available t = false /\ has_mps t = false).
Proof.
  unfold maybe_cuda_or_mps.
  destruct (cuda_is_available t), (has_mps t); simpl;
    repeat split; try discriminate; try reflexivity;
    intros H; try discriminate H; destruct H; discriminate.
Qed.

(** ** The tabular view builder *)

(** X8: [zip] transposes: tuple [i] exists exactly when every iterable has
    an item [i], and it holds these items in the order of the iterables.
    So the tuples stop at the shortest iterable and keep the input order. *)
Theorem zip_shortest_lookup (iterables : list (list value)) (i : nat)
    (row : list value) :
  zip_shortest iterables !! i = Some row <->
  iterables <> [] /\ Forall2 (fun it x => it !! i = Some x) iterables row.
Proof.
  revert row. induction iterables as [|it rest IH]; intros row.
  - simpl. split; [discriminate|]. intros [H _]. contradiction.
  - destruct rest as [|it' rest'].
    + simpl. rewrite lookup_map. split.
      * destruct (it !! i) as [x|] eqn:Hx; simpl; [|discriminate].
        intros [= <-]. split; [discriminate|]. repeat constructor. exact Hx.
      * intros [_ H]. inversion H as [|? x ? r Hx Hr]; subst.
        inversion Hr; subst. rewrite Hx. reflexivity.
    + change (zip_shortest (it :: it' :: rest'))
        with (zip_with cons it (zip_shortest (it' :: rest'))).
      rewrite lookup_zip_with.
      remember (zip_shortest (it' :: rest')) as zs eqn:Hzs. clear Hzs.
      split.
      * destruct (it !! i) as [x|] eqn:Hx; simpl; [|discriminate].
        destruct (zs !! i) as [r|] eqn:Hr; simpl; [|discriminate].
        intros [= <-]. split; [discriminate|].
        constructor; [exact Hx|]. exact (proj2 (proj1 (IH r) eq_refl)).
      * intros [_ H]. inversion H as [|? x ? r Hx Hr]; subst.
        rewrite Hx. simpl.
        assert (zs !! i = Some r) as ->
            by (apply IH; split; [discriminate|exact Hr]).
        reflexivity.
Qed.

(** X9: a table the builder returns is rectangular: every row has exactly
    as many cells as the table has columns. *)
Theorem prepare2d_rectangular (docs topics labels : list value) (pts : ndarray)
    (t : DataFrame) :
  prepare2d docs topics labels pts = Ok t ->
  Forall (fun r => length r = length (columns t)) (rows t).
Proof.
  intros Ht.
  destruct (Nat.eq_dec (ncols pts) 2) as [Hc|Hc];
    [|rewrite prepare2d_not_2d in Ht by exact Hc; discriminate].
  rewrite prepare2d_2d in Ht by exact Hc.
  assert (Hfive : Forall (fun r => length r = 5)
                    (zip_shortest [docs; topics; labels;
                                   column_values pts 0; column_values pts 1])).
  { apply zip5_Forall. reflexivity. }
  destruct (from_dicts _) as [f|] eqn:Hf; cbn [bind] in Ht; [|discriminate].
  apply from_dicts_shape in Hf.
  destruct (zip_shortest _) as [|r rest].
  - subst f. rewrite rename_no_columns in Ht.
    destruct rename_strict; [discriminate|]. injection Ht as <-. constructor.
  - destruct Hf as [Hcols Hrows]. destruct f as [cols frows].
    cbn [rows columns] in *. subst cols.
    rewrite (Forall_inv Hfive), rename_positional in Ht. injection Ht as <-.
    cbn [rows columns].
    induction Hrows as [|r0 r1 l l' Hlen _ IH]; constructor.
    + rewrite Hlen. exact (Forall_inv Hfive).
    + apply IH. exact (Forall_inv_tail Hfive).
Qed.

Lemma zip5_take (a b c d e : list value) (m : nat) :
  length a `min` (length b `min` (length c `min` (length d `min` length e))) <= m ->
  zip_shortest [take m a; take m b; take m c; d; e] = zip_shortest [a; b; c; d; e].
Proof.
  intros Hm. apply list_eq. intros i. simpl.
  rewrite !lookup_zip_with, !lookup_map.
  destruct (decide (i < m)) as [Hi|Hi].
  - rewrite !lookup_take_lt by exact Hi. reflexivity.
  - rewrite (lookup_take_ge a) by lia. simpl. symmetry.
    destruct (a !! i) eqn:Ha; simpl; [|reflexivity].
    destruct (b !! i) eqn:Hb; simpl; [|reflexivity].
    destruct (c !! i) eqn:Hc; simpl; [|reflexivity].
    destruct (d !! i) eqn:Hd; simpl; [|reflexivity].
    destruct (e !! i) eqn:He; simpl; [|reflexivity].
    apply lookup_lt_Some in Ha, Hb, Hc, Hd, He. lia.
Qed.

(** X10: what lies past the shortest sequence is never looked at: cutting
    the documents, topics and labels at any position [m] not below the
    shortest of the four lengths leaves the result of the builder, table or
    exception, unchanged. *)
Theorem prepare2d_take (docs topics labels : list value) (pts : ndarray)
    (m : nat) :
  length docs `min` (length topics `min` (length labels `min` nrows pts)) <= m ->
  prepare2d (take m docs) (take m topics) (take m labels) pts
  = prepare2d docs topics labels pts.
Proof.
  intros Hm.
  destruct (Nat.eq_dec (ncols pts) 2) as [Hc|Hc].
  - rewrite !prepare2d_2d by exact Hc.
    rewrite zip5_take; [reflexivity|].
    rewrite !column_values_length. lia.
  - rewrite !prepare2d_not_2d by exact Hc. reflexivity.
Qed.

(** ** The cells in sequence *)

(** X11: run on a file whose top level is a non-empty object (the layout
    the mask is meant for), the notebook, which loads without a mask, ends
    in TypeError: the loop runs over the keys of the object and subscripts
    a string.  No KeyError points at the missing mask. *)
Theorem pl_view_object_TypeError (fs : gmap string node)
    (where_ bytes text : string)
    (entry : string * value) (entries : list (string * value))
    (topics : list value) (points : ndarray) :
  fs !! path_str where_ = Some (Regular bytes) ->
  utf8_decode bytes = Some text ->
  decode text = Some (VDict (entry :: entries)) ->
  pl_view fs where_ topics points = Raise TypeError.
Proof.
  intros Hfs Htext Hdocs. unfold pl_view, ignite_dataset, open, json_load, read.
  rewrite Hfs. simpl. rewrite Htext. simpl. rewrite Hdocs. reflexivity.
Qed.

(** X12: run on a file that holds [n >= 1] Documents whose [content] and
    [title] are strings, with [n] topics that are 64-bit integers and [n]
    points of two columns, the notebook ends with a table of [n] rows under
    the columns text, topic, label, x, y, and row [i] holds the [content]
    of Document [i], topic [i], the [title] of Document [i] and the
    coordinates of point [i]. *)
Theorem pl_view_rows (fs : gmap string node) (where_ bytes text : string)
    (items topics : list value) (points : ndarray) :
  fs !! path_str where_ = Some (Regular bytes) ->
  utf8_decode bytes = Some text ->
  decode text = Some (VList items) ->
  Forall (fun d => (exists c, field "content" d (VStr c)) /\
                   (exists t, field "title" d (VStr t)))
         items ->
  Forall (has_dtype Int64) topics ->
  1 <= length items ->
  length topics = length items ->
  shape points = (length items, 2) ->
  exists t,
    pl_view fs where_ topics points = Ok t /\
    columns t = VIEW_COLUMNS /\
    length (rows t) = length items /\
    forall i d tp,
      items !! i = Some d -> topics !! i = Some tp ->
      exists c l,
        field "content" d c /\ field "title" d l /\
        rows t !! i
        = Some [c; tp; l; VFloat (item points i 0); VFloat (item points i 1)].
Proof.
  intros Hfs Htext Hdocs Hvalid Ktopics Hn Htopics Hshape.
  destruct (extract_fields items) as (texts & labels & Hex & Htexts & Hlabels).
  { eapply Forall_impl; [exact Hvalid|]. intros d [[c Hc] [t Ht]]. eauto. }
  assert (Ktexts : Forall (has_dtype Utf8) texts).
  { clear Hex Hlabels Hn Htopics Hshape Hdocs.
    induction Htexts as [|d v items texts Hv _ IH]; constructor;
      inversion Hvalid as [|? ? [[c Hc] _] Hrest]; subst.
    - rewrite (field_functional _ _ _ _ Hv Hc). reflexivity.
    - apply IH. exact Hrest. }
  assert (Klabels : Forall (has_dtype Utf8) labels).
  { clear Hex Htexts Ktexts Hn Htopics Hshape Hdocs.
    induction Hlabels as [|d v items labels Hv _ IH]; constructor;
      inversion Hvalid as [|? ? [_ [t Ht]] Hrest]; subst.
    - rewrite (field_functional _ _ _ _ Hv Ht). reflexivity.
    - apply IH. exact Hrest. }
  assert (Hc : ncols points = 2) by (unfold ncols; rewrite Hshape; reflexivity).
  assert (Hr : nrows points = length items)
    by (unfold nrows; rewrite Hshape; reflexivity).
  pose proof (Forall2_length _ _ _ Htexts) as Hlt.
  pose proof (Forall2_length _ _ _ Hlabels) as Hll.
  eexists. split.
  - unfold pl_view, ignite_dataset, open, json_load, read.
    rewrite Hfs. simpl. rewrite Htext. simpl. rewrite Hdocs. simpl.
    rewrite Hex. simpl.
    apply (prepare2d_table Utf8 Int64 Utf8); [assumption..|lia].
  - cbn [rows columns]. split; [reflexivity|].
    split; [rewrite view_length; lia|].
    intros i d tp Hd Htp.
    destruct (Forall2_lookup_l _ _ _ _ _ Htexts Hd) as (c & Hci & Hfc).
    destruct (Forall2_lookup_l _ _ _ _ _ Hlabels Hd) as (l & Hli & Hfl).
    exists c, l. split; [exact Hfc|]. split; [exact Hfl|].
    apply zip5_lookup; auto; apply column_values_lookup;
      apply lookup_lt_Some in Hd; lia.
Qed.

End Notebook.

(** * Closed instances *)

(** The empty mask on a file whose object has the key [docs]. *)
Lemma ignite_dataset_empty_mask_witness :
  ignite_dataset sample_path_str sample_utf8 sample_decoder
    sample_fs "masked.json" (Some "") = Ok masked_value.
Proof.
  apply (proj2 (proj2 (ignite_dataset_empty_mask
                         sample_path_str sample_utf8 sample_decoder
                         sample_fs "masked.json")) masked_text masked_text);
    reflexivity.
Defined.

(** C6 as stated fails: the file parses to an object that has the key given
    as mask, the empty string, and the loader returns the whole object
    instead of the value at that key. *)
Lemma ignite_dataset_blank_key_not_selected :
  sample_fs !! "blank.json" = Some (Regular blank_key_text) /\
  sample_decoder blank_key_text = Some blank_key_value /\
  getitem blank_key_value "" = Ok (VList []) /\
  ignite_dataset sample_path_str sample_utf8 sample_decoder
    sample_fs "blank.json" (Some "") = Ok blank_key_value /\
  ignite_dataset sample_path_str sample_utf8 sample_decoder
    sample_fs "blank.json" (Some "") <> Ok (VList []).
Proof. repeat split; try reflexivity. vm_compute. discriminate. Qed.

(** The mask [docs] selects the array; no mask returns the object. *)
Lemma ignite_dataset_returns_witness :
  ignite_dataset sample_path_str sample_utf8 sample_decoder
    sample_fs "masked.json" (Some "docs") = Ok (VList []) /\
  ignite_dataset sample_path_str sample_utf8 sample_decoder
    sample_fs "masked.json" None = Ok masked_value.
Proof.
  destruct (ignite_dataset_returns sample_path_str sample_utf8 sample_decoder
              sample_fs "masked.json" masked_text masked_text masked_value
              eq_refl eq_refl eq_refl) as [Hmask Hwhole].
  split; [|exact Hwhole].
  apply Hmask; [discriminate|reflexivity].
Defined.

(** C7 as stated fails: a mask that is given and absent from the parsed
    structure does not always end in KeyError.  The empty mask on the empty
    object returns the object, and a mask on a top-level array ends in
    TypeError. *)
Lemma ignite_dataset_absent_mask_no_KeyError :
  sample_decoder "{}" = Some (VDict []) /\
  ignite_dataset sample_path_str sample_utf8 sample_decoder
    sample_fs "empty.json" (Some "") = Ok (VDict []) /\
  sample_decoder "[]" = Some (VList []) /\
  ignite_dataset sample_path_str sample_utf8 sample_decoder
    sample_fs "list.json" (Some "docs") = Raise TypeError.
Proof. repeat split; reflexivity. Qed.

(** A missing path, a truncated text and a mask that is not a key. *)
Lemma ignite_dataset_failures_witness :
  ignite_dataset sample_path_str sample_utf8 sample_decoder
    sample_fs "nowhere.json" None
    = Raise (FileNotFoundError "nowhere.json") /\
  ignite_dataset sample_path_str sample_utf8 sample_decoder
    sample_fs "broken.json" None = Raise JSONDecodeError /\
  ignite_dataset sample_path_str sample_utf8 sample_decoder
    sample_fs "masked.json" (Some "items")
    = Raise (KeyError "items").
Proof.
  split; [|split].
  - apply (proj1 (ignite_dataset_failures sample_path_str sample_utf8
                    sample_decoder sample_fs "nowhere.json")).
    reflexivity.
  - apply (proj1 (proj2 (ignite_dataset_failures sample_path_str sample_utf8
                           sample_decoder sample_fs "broken.json")) "{" "{");
      reflexivity.
  - apply (proj2 (proj2 (ignite_dataset_failures sample_path_str sample_utf8
                           sample_decoder sample_fs "masked.json"))
             masked_text masked_text [("docs", VList [])]);
      [reflexivity|reflexivity|reflexivity|discriminate|reflexivity].
Defined.

(** The other ways the call ends before any JSON is decoded: the empty
    path is the current directory, a path runs through a regular file, a
    file may not be read, a file is not UTF-8. *)
Example ignite_dataset_os_errors_sample :
  ignite_dataset sample_path_str sample_utf8 sample_decoder sample_fs "" None
    = Raise (IsADirectoryError ".") /\
  ignite_dataset sample_path_str sample_utf8 sample_decoder
    sample_fs "list.json/part" None
    = Raise (NotADirectoryError "list.json/part") /\
  ignite_dataset sample_path_str sample_utf8 sample_decoder
    sample_fs "secret.json" None
    = Raise (PermissionError "secret.json") /\
  ignite_dataset sample_path_str sample_utf8 sample_decoder
    sample_fs "latin1.json" None
    = Raise UnicodeDecodeError.
Proof. repeat split; reflexivity. Qed.

(** The second Document has no [title]. *)
Lemma extract_missing_field_witness :
  exists k, (k = "content" \/ k = "title") /\
    extract (VList [sample_document "one" "A"; VDict [("content", VStr "two")]])
      = Raise (KeyError k).
Proof.
  apply extract_missing_field.
  - repeat constructor; eexists; reflexivity.
  - right. left. right. eexists. split; reflexivity.
Defined.

(** Five Documents with both fields. *)
Lemma extract_valid_witness :
  exists texts labels,
    extract five_documents = Ok (texts, labels) /\
    length texts = 5 /\ length labels = 5 /\
    forall i d, [sample_document "one" "A"; sample_document "two" "B";
                 sample_document "three" "C"; sample_document "four" "D";
                 sample_document "five" "E"] !! i = Some d ->
      (exists c, texts !! i = Some c /\ field "content" d c) /\
      (exists t, labels !! i = Some t /\ field "title" d t).
Proof.
  apply (extract_valid
           [sample_document "one" "A"; sample_document "two" "B";
            sample_document "three" "C"; sample_document "four" "D";
            sample_document "five" "E"]).
  repeat constructor; eexists; reflexivity.
Defined.

(** One runtime per branch of the policy. *)
Lemma maybe_cuda_or_mps_policy_witness :
  maybe_cuda_or_mps {| cuda_is_available := true; has_mps := true |} = "cuda:0" /\
  maybe_cuda_or_mps {| cuda_is_available := false; has_mps := true |} = "mps" /\
  maybe_cuda_or_mps {| cuda_is_available := false; has_mps := false |} = "cpu".
Proof.
  split; [|split].
  - apply (proj1 (maybe_cuda_or_mps_policy _)). reflexivity.
  - apply (proj1 (proj2 (maybe_cuda_or_mps_policy _))); reflexivity.
  - apply (proj1 (proj2 (proj2 (maybe_cuda_or_mps_policy _)))); reflexivity.
Defined.

(** The two settings of [strict] on sequences of unequal length: the
    builder passes [strict=False]. *)
Example zip_strict_rejects :
  zip [[VStr "a"; VStr "b"]; [VInt 1]] true = Raise ValueError /\
  zip [[VStr "a"; VStr "b"]; [VInt 1]] false = Ok [[VStr "a"; VInt 1]].
Proof. split; reflexivity. Qed.

(** C1 as stated fails: two documents against one topic, one label and one
    point are not rejected; the builder returns a table of one row. *)
Lemma prepare2d_unequal_lengths_accepted :
  length [VStr "a"; VStr "b"] <> length [VInt 1] /\
  prepare2d (notebook_embeddings one_vector) true no_coercion
    [VStr "a"; VStr "b"] [VInt 1] [VStr "l"] one_point
  = Ok {| columns := ["text"; "topic"; "label"; "x"; "y"];
          rows := [[VStr "a"; VInt 1; VStr "l"; VFloat 1.5; VFloat 2.5]] |} /\
  prepare2d (notebook_embeddings one_vector) false no_coercion
    [VStr "a"; VStr "b"] [VInt 1] [VStr "l"] one_point
  = Ok {| columns := ["text"; "topic"; "label"; "x"; "y"];
          rows := [[VStr "a"; VInt 1; VStr "l"; VFloat 1.5; VFloat 2.5]] |}.
Proof. split; [discriminate|]. split; vm_compute; reflexivity. Qed.

(** Two documents against one topic, one label and one point. *)
Lemma prepare2d_truncates_witness :
  exists t,
    prepare2d (notebook_embeddings one_vector) true no_coercion
      [VStr "a"; VStr "b"] [VInt 1] [VStr "l"] one_point = Ok t /\
    columns t = VIEW_COLUMNS /\
    length (rows t) = 1 /\
    forall i d tp l,
      [VStr "a"; VStr "b"] !! i = Some d -> [VInt 1] !! i = Some tp ->
      [VStr "l"] !! i = Some l -> i < 1 ->
      rows t !! i
      = Some [d; tp; l; VFloat (item one_point i 0); VFloat (item one_point i 1)].
Proof.
  apply (prepare2d_truncates (notebook_embeddings one_vector) true no_coercion
           Utf8 Int64 Utf8
           [VStr "a"; VStr "b"] [VInt 1] [VStr "l"] one_point).
  - repeat constructor.
  - repeat constructor.
  - repeat constructor.
  - reflexivity.
  - simpl. lia.
Defined.

(** C2, at the input that shows the defect: a point with three components,
    in the notebook, where [embeddings] is bound to a list (whatever the
    list holds).  The assertion fails, its message asks the list for a
    shape, and the call ends in AttributeError instead of AssertionError. *)
Theorem prepare2d_three_columns_notebook :
  ncols point_3d = 3 /\
  forall vectors strict coerce,
    prepare2d (notebook_embeddings vectors) strict coerce
      [VStr "a"] [VInt 0] [VStr "l"] point_3d
    = Raise (AttributeError "shape").
Proof. split; [reflexivity|]. intros vectors strict coerce. reflexivity. Qed.



(** C5 as stated fails: five Documents, five topics and five labels with
    points of two columns.  With three such points the table has three
    rows; with five points and a topic of 200 bits there is no table. *)
Lemma five_documents_three_points :
  ncols three_points = 2 /\
  extract five_documents
  = Ok ([VStr "one"; VStr "two"; VStr "three"; VStr "four"; VStr "five"],
        five_labels) /\
  length five_topics = 5 /\ length five_labels = 5 /\
  (exists t,
     prepare2d (notebook_embeddings one_vector) true no_coercion
       [VStr "one"; VStr "two"; VStr "three"; VStr "four"; VStr "five"]
       five_topics five_labels three_points = Ok t /\
     columns t = ["text"; "topic"; "label"; "x"; "y"] /\
     length (rows t) = 3) /\
  ncols five_points = 2 /\
  prepare2d (notebook_embeddings one_vector) true no_coercion
    [VStr "one"; VStr "two"; VStr "three"; VStr "four"; VStr "five"]
    [VInt 4; VInt 4; VInt 0; VInt (2 ^ 200); VInt 2] five_labels five_points
  = Raise OverflowError.
Proof.
  split; [reflexivity|]. split; [reflexivity|].
  split; [reflexivity|]. split; [reflexivity|]. split.
  - eexists. split; [vm_compute; reflexivity|]. split; reflexivity.
  - split; [reflexivity|]. vm_compute. reflexivity.
Qed.

(** The five sample Documents, from extraction to the view. *)
Lemma five_documents_view_witness :
  exists documents titles t,
    extract five_documents = Ok (documents, titles) /\
    prepare2d (notebook_embeddings one_vector) true no_coercion
      documents five_topics five_labels five_points
    = Ok t /\
    length (rows t) = 5 /\
    columns t = ["text"; "topic"; "label"; "x"; "y"].
Proof.
  apply (five_documents_view (notebook_embeddings one_vector) true no_coercion
           Utf8 Int64 Utf8
           [sample_document "one" "A"; sample_document "two" "B";
            sample_document "three" "C"; sample_document "four" "D";
            sample_document "five" "E"]
           five_topics five_labels five_points).
  - reflexivity.
  - repeat constructor; eexists; try split; reflexivity.
  - repeat constructor.
  - repeat constructor.
  - reflexivity.
  - reflexivity.
  - reflexivity.
Defined.

(** * Closed instances of the further properties *)


(** The two sample Documents. *)
Lemma extract_sound_witness :
  exists items,
    iter (VList two_documents) = Ok items /\
    Forall is_mapping items /\
    Forall2 (field "content") items [VStr "one"; VStr "two"] /\
    Forall2 (field "title") items [VStr "A"; VStr "B"].
Proof.
  apply (extract_sound (VList two_documents)
           [VStr "one"; VStr "two"] [VStr "A"; VStr "B"]).
  reflexivity.
Defined.

(** A number in place of the collection. *)
Lemma extract_error_set_witness :
  TypeError = TypeError \/ TypeError = KeyError "content" \/
  TypeError = KeyError "title".
Proof. apply (extract_error_set (VInt 3) TypeError). reflexivity. Defined.

(** The first Document lacks [title], the second lacks [content]. *)
Lemma extract_content_first_witness :
  extract (VList [VDict [("content", VStr "one")]; VDict [("title", VStr "B")]])
  = Raise (KeyError "content").
Proof.
  apply (proj1 (extract_content_first
                  [VDict [("content", VStr "one")]; VDict [("title", VStr "B")]]
                  ltac:(repeat constructor; eexists; reflexivity))).
  right. left. eexists. split; reflexivity.
Defined.

(** A Document with a third field against the plain one. *)
Lemma extract_two_fields_only_witness :
  extract (VList [VDict [("id", VInt 7); ("title", VStr "A"); ("content", VStr "one")]])
  = extract (VList [sample_document "one" "A"]).
Proof.
  apply extract_two_fields_only.
  repeat constructor.
Defined.

(** One Document after another. *)
Lemma extract_app_witness :
  extract (VList ([sample_document "one" "A"] ++ [sample_document "two" "B"]))
  = Ok (([VStr "one"] ++ [VStr "two"])%list, ([VStr "A"] ++ [VStr "B"])%list).
Proof. apply extract_app; reflexivity. Defined.

(** Two tuples from two pairs; no third tuple. *)
Lemma zip_shortest_lookup_witness :
  zip_shortest [[VStr "a"; VStr "b"]; [VInt 1; VInt 2; VInt 3]] !! 1
  = Some [VStr "b"; VInt 2].
Proof.
  apply zip_shortest_lookup. split; [discriminate|].
  repeat constructor.
Defined.

(** The one-row table of two documents against one point. *)
Lemma prepare2d_rectangular_witness :
  Forall (fun r => length r = 5)
         [[VStr "a"; VInt 1; VStr "l"; VFloat 1.5; VFloat 2.5]].
Proof.
  apply (prepare2d_rectangular (notebook_embeddings one_vector) true no_coercion
           [VStr "a"; VStr "b"] [VInt 1] [VStr "l"] one_point
           {| columns := VIEW_COLUMNS;
              rows := [[VStr "a"; VInt 1; VStr "l"; VFloat 1.5; VFloat 2.5]] |}).
  vm_compute. reflexivity.
Defined.

(** Two documents cut at one, against one topic, one label and one point. *)
Lemma prepare2d_take_witness :
  prepare2d (notebook_embeddings one_vector) true no_coercion
    (take 1 [VStr "a"; VStr "b"]) (take 1 [VInt 1]) (take 1 [VStr "l"]) one_point
  = prepare2d (notebook_embeddings one_vector) true no_coercion
      [VStr "a"; VStr "b"] [VInt 1] [VStr "l"] one_point.
Proof.
  apply (prepare2d_take (notebook_embeddings one_vector) true no_coercion
           [VStr "a"; VStr "b"] [VInt 1] [VStr "l"] one_point 1).
  simpl. lia.
Defined.

(** X13: when the points do not have two columns no table is returned, and
    the exception is decided by the module-level [embeddings], not by the
    argument: NameError when the name is unbound, AttributeError when it is
    bound to a list or to a plain value, which have no shape, IndexError
    when it is bound to an object whose shape has fewer than two
    dimensions, and otherwise an AssertionError whose message reports the
    second dimension of that object instead of the width of the points. *)
Theorem prepare2d_not_2d_exception (embeddings : option object) (strict : bool)
    (coerce : list (list value) -> result (nat -> value -> value))
    (docs topics labels : list value) (pts : ndarray) :
  ncols pts <> 2 ->
  (embeddings = None ->
   prepare2d embeddings strict coerce docs topics labels pts
   = Raise (NameError "embeddings")) /\
  (forall v, embeddings = Some (OValue v) ->
   prepare2d embeddings strict coerce docs topics labels pts
   = Raise (AttributeError "shape")) /\
  (forall items, embeddings = Some (OList items) ->
   prepare2d embeddings strict coerce docs topics labels pts
   = Raise (AttributeError "shape")) /\
  (forall dims, embeddings = Some (OShaped dims) -> length dims < 2 ->
   prepare2d embeddings strict coerce docs topics labels pts
   = Raise IndexError) /\
  (forall dims got, embeddings = Some (OShaped dims) -> dims !! 1 = Some got ->
   prepare2d embeddings strict coerce docs topics labels pts
   = Raise (AssertionError ("Embeddings shape mismatch Exptected 2D, got "
                              +:+ pretty got +:+ "D"))) /\
  (forall a, embeddings = Some (OArray a) ->
   prepare2d embeddings strict coerce docs topics labels pts
   = Raise (AssertionError ("Embeddings shape mismatch Exptected 2D, got "
                              +:+ pretty (ncols a) +:+ "D"))).
Proof.
  intros Hc. rewrite prepare2d_not_2d by exact Hc. repeat split.
  - intros ->. reflexivity.
  - intros v ->. reflexivity.
  - intros items ->. reflexivity.
  - intros dims -> Hlen. rewrite lookup_ge_None_2 by lia. reflexivity.
  - intros dims got -> ->. reflexivity.
  - intros a ->. reflexivity.
Qed.

(** Three-column points while [embeddings] is bound to a two-column array:
    the message says it got 2D. *)
Lemma prepare2d_not_2d_exception_witness :
  prepare2d (Some (OArray one_point)) true no_coercion
    [VStr "a"] [VInt 0] [VStr "l"] point_3d
  = Raise (AssertionError "Embeddings shape mismatch Exptected 2D, got 2D").
Proof.
  apply (proj2 (proj2 (proj2 (proj2 (proj2
           (prepare2d_not_2d_exception
              (Some (OArray one_point)) true no_coercion
              [VStr "a"] [VInt 0] [VStr "l"] point_3d
              ltac:(discriminate))))))
           one_point).
  reflexivity.
Defined.

(** X14: on points with two columns the module-level [embeddings] is never
    read: the result is the same whatever the name is bound to, also when it
    is not bound at all. *)
Theorem prepare2d_ignores_embeddings (e1 e2 : option object) (strict : bool)
    (coerce : list (list value) -> result (nat -> value -> value))
    (docs topics labels : list value) (pts : ndarray) :
  ncols pts = 2 ->
  prepare2d e1 strict coerce docs topics labels pts
  = prepare2d e2 strict coerce docs topics labels pts.
Proof. intros Hc. rewrite !prepare2d_2d by exact Hc. reflexivity. Qed.

(** Unbound against the notebook's list. *)
Lemma prepare2d_ignores_embeddings_witness :
  prepare2d None true no_coercion [VStr "a"] [VInt 0] [VStr "l"] one_point
  = prepare2d (notebook_embeddings one_vector) true no_coercion
      [VStr "a"] [VInt 0] [VStr "l"] one_point.
Proof. apply prepare2d_ignores_embeddings. reflexivity. Defined.

(** The file whose object keeps the collection under [docs]. *)
Lemma pl_view_object_TypeError_witness :
  pl_view sample_path_str sample_utf8 sample_decoder
    (notebook_embeddings one_vector) true no_coercion
    sample_fs "masked.json" [] two_points
  = Raise TypeError.
Proof.
  apply (pl_view_object_TypeError sample_path_str sample_utf8 sample_decoder
           (notebook_embeddings one_vector) true no_coercion
           sample_fs "masked.json" masked_text masked_text
           ("docs", VList []) []);
    reflexivity.
Defined.

(** The file of two Documents, with two topics and two points. *)
Lemma pl_view_rows_witness :
  exists t,
    pl_view sample_path_str sample_utf8 two_documents_decoder
      (notebook_embeddings one_vector) true no_coercion
      two_documents_fs ".data/polaroids.ai.data.json" [VInt 4; VInt 0] two_points
    = Ok t /\
    columns t = VIEW_COLUMNS /\
    length (rows t) = 2 /\
    forall i d tp,
      two_documents !! i = Some d -> [VInt 4; VInt 0] !! i = Some tp ->
      exists c l,
        field "content" d c /\ field "title" d l /\
        rows t !! i
        = Some [c; tp; l; VFloat (item two_points i 0); VFloat (item two_points i 1)].
Proof.
  apply (pl_view_rows sample_path_str sample_utf8 two_documents_decoder
           (notebook_embeddings one_vector) true no_coercion
           two_documents_fs ".data/polaroids.ai.data.json"
           two_documents_text two_documents_text
           two_documents [VInt 4; VInt 0] two_points).
  - reflexivity.
  - reflexivity.
  - reflexivity.
  - repeat constructor; eexists; reflexivity.
  - repeat constructor.
  - simpl. lia.
  - reflexivity.
  - reflexivity.
Defined.
